(** * The RISC-V runtime-entry bridge of the Dart VM

    A shallow embedding of [runtime/vm/runtime_entry_riscv.cc]:
    [RuntimeEntry::GetEntryPoint], which resolves the address generated code
    jumps to, and [RuntimeEntry::CallInternal], which emits the call sequence
    for one call site.  Everything the file only uses (the register
    assignment, the thread layout, the simulator, the assembler) enters as a
    parameter or as a small model of its own, marked as such. *)

From Stdlib Require Import ZArith List Bool String Lia.
Import ListNotations.
Open Scope string_scope.
Open Scope Z_scope.

(** ** Machine words and registers *)

(** [uword] and [intptr_t]: machine words, carried as integers. *)
Definition uword := Z.

(** The thirty-two integer registers under their ABI names, as the [Register]
    enumeration of [vm/constants_riscv.h] lists them.  The source names [T4]
    and [T5] directly; the role registers ([THR], [TMP2], ...) are aliases
    and are parameters below. *)
Inductive Register : Type :=
| ZR | RA | SP | GP | TP | T0 | T1 | T2 | FP | S1
| A0 | A1 | A2 | A3 | A4 | A5 | A6 | A7
| S2 | S3 | S4 | S5 | S6 | S7 | S8 | S9 | S10 | S11
| T3 | T4 | T5 | T6.

Definition Register_eq_dec (a b : Register) : {a = b} + {a <> b}.
Proof. decide equality. Defined.

Definition Register_eqb (a b : Register) : bool :=
  if Register_eq_dec a b then true else false.

(** ** Outcomes: a failed [ASSERT] aborts the process *)

Inductive Outcome (A : Type) : Type :=
| Done (a : A)
| AssertionFailure (cond : string).
Arguments Done {A} a.
Arguments AssertionFailure {A} cond.

(** ** The simulator's redirection interface *)

Module Simulator.

(** [Simulator::CallKind]. *)
Inductive CallKind : Type :=
| kRuntimeCall
| kLeafRuntimeCall
| kLeafFloatRuntimeCall.

(** Code that may abort on an [ASSERT] and may call
    [Simulator::RedirectExternalReference].  The simulator is not part of this
    file, so the call is kept as a request node: [RequestRedirect f k n cont]
    asks for the handle of [(f, k, n)] and goes on with [cont handle]. *)
Inductive Resolve (A : Type) : Type :=
| Return (a : A)
| Fatal (cond : string)
| RequestRedirect (function : uword) (call_kind : CallKind)
                  (argument_count : Z) (cont : uword -> Resolve A).
Arguments Return {A} a.
Arguments Fatal {A} cond.
Arguments RequestRedirect {A} function call_kind argument_count cont.

Fixpoint bind {A B : Type} (p : Resolve A) (f : A -> Resolve B) : Resolve B :=
  match p with
  | Return a => f a
  | Fatal c => Fatal c
  | RequestRedirect fn k n cont =>
      RequestRedirect fn k n (fun h => bind (cont h) f)
  end.

Definition RedirectExternalReference (function : uword) (call_kind : CallKind)
    (argument_count : Z) : Resolve uword :=
  RequestRedirect function call_kind argument_count Return.

(** Modelled from the spec: the [ASSERT] macro ([platform/assert.h] is not
    among the sources).  The spec calls a failed assertion fatal: the
    condition is evaluated and, when false, execution stops there. *)
Definition ASSERT (cond : bool) (text : string) : Resolve unit :=
  if cond then Return tt else Fatal text.

(** Running resolution against a simulator: a state and the function that
    answers redirection requests. *)
Section Interp.
Variable SimState : Type.
Variable redirect : uword -> CallKind -> Z -> SimState -> uword * SimState.

Fixpoint interp {A : Type} (p : Resolve A) (s : SimState)
    : Outcome A * SimState :=
  match p with
  | Return a => (Done a, s)
  | Fatal c => (AssertionFailure c, s)
  | RequestRedirect fn k n cont =>
      let (h, s') := redirect fn k n s in interp (cont h) s'
  end.
End Interp.

End Simulator.

Import Simulator.

Declare Scope resolve_scope.
Delimit Scope resolve_scope with resolve.
Notation "x <- p ;; q" := (Simulator.bind p (fun x => q))
  (at level 61, p at next level, right associativity) : resolve_scope.
Notation "p ;; q" := (Simulator.bind p (fun _ => q))
  (at level 61, right associativity) : resolve_scope.

(** ** Runtime entry descriptors *)

(** The fields of a [RuntimeEntry] that its accessors [name()], [function()],
    [argument_count()], [is_leaf()] and [is_float()] read.  [function] is the
    address of the native implementation; [argument_count] is an
    [intptr_t]. *)
Record RuntimeEntry : Type := mkRuntimeEntry {
  name : string;
  function : uword;
  argument_count : Z;
  is_leaf : bool;
  is_float : bool
}.

(** ** [RuntimeEntry::GetEntryPoint] *)

(** The conditions of the three [ASSERT]s of the file, as the macro reports
    them. *)
Definition ASSERT_nonnegative : string := "argument_count() >= 0".
Definition ASSERT_leaf_budget : string :=
  "!is_leaf() || (!is_float() && (argument_count() <= 4)) || (argument_count() <= 2)".
Definition ASSERT_arity : string :=
  "argument_count == runtime_entry->argument_count()".

(** The argument is whether [USING_SIMULATOR] is defined for the build. *)
Definition GetEntryPoint (USING_SIMULATOR : bool) (e : RuntimeEntry)
    : Resolve uword :=
  (let entry := function e in
   if USING_SIMULATOR then
     ASSERT (argument_count e >=? 0) ASSERT_nonnegative ;;
     ASSERT (negb (is_leaf e)
             || (negb (is_float e) && (argument_count e <=? 4))
             || (argument_count e <=? 2))
            ASSERT_leaf_budget ;;
     let call_kind :=
       if is_leaf e
       then (if is_float e then kLeafFloatRuntimeCall else kLeafRuntimeCall)
       else kRuntimeCall in
     entry <- RedirectExternalReference entry call_kind (argument_count e) ;;
     Return entry
   else
     Return entry)%resolve.

(** The argument budget of a leaf descriptor, in the spec's words: at most
    four arguments, at most two when the call is a float call. *)
Definition spec_leaf_budget (e : RuntimeEntry) : bool :=
  if is_float e then argument_count e <=? 2 else argument_count e <=? 4.

(** The call kind of a descriptor, in the spec's words. *)
Definition spec_call_kind (e : RuntimeEntry) : CallKind :=
  match is_leaf e, is_float e with
  | false, _ => kRuntimeCall
  | true, false => kLeafRuntimeCall
  | true, true => kLeafFloatRuntimeCall
  end.

(** ** The target: register roles, thread layout, constants *)

(** What [CallInternal] takes from headers that are not part of this file:
    the registers that play the fixed roles, the two predicates the static
    assertions test, the offsets into the [Thread] object, the tag constant,
    the word size and the stack alignment of the ABI. *)
Record Target : Type := mkTarget {
  THR : Register;
  TMP2 : Register;
  PP : Register;
  NULL_REG : Register;
  WRITE_BARRIER_MASK : Register;
  DISPATCH_TABLE_REG : Register;
  IsAbiPreservedRegister : Register -> bool;
  IsCalleeSavedRegister : Register -> bool;
  OffsetFromThread : RuntimeEntry -> Z;
  vm_tag_offset : Z;
  kDartTagId : Z;
  XLEN : Z;
  kAbiStackAlignment : Z
}.

(** ** The assembler *)

(** [compiler::Address(base, offset)]. *)
Inductive Address : Type :=
| mkAddress (base : Register) (offset : Z).

(** The assembler calls [CallInternal] makes, one constructor per method. *)
Inductive Instr : Type :=
| lx (rd : Register) (a : Address)
| sx (rs : Register) (a : Address)
| ReserveAlignedFrameSpace (frame_space : Z)
| jalr (rs1 : Register)
| LoadImmediate (rd : Register) (imm : Z)
| li (rd : Register) (imm : Z)
| JumpAndLinkToRuntime.

(** The assembler's buffer: the calls received so far, oldest first. *)
Definition Assembler := list Instr.

(** Code that appends to the buffer and may abort on an [ASSERT]; the buffer
    comes back in both cases, as it stands when the code stops. *)
Definition Emit (A : Type) : Type := Assembler -> Outcome A * Assembler.

Definition emit_bind {A B : Type} (p : Emit A) (f : A -> Emit B) : Emit B :=
  fun asm =>
    match p asm with
    | (Done a, asm') => f a asm'
    | (AssertionFailure c, asm') => (AssertionFailure c, asm')
    end.

Definition emit (i : Instr) : Emit unit :=
  fun asm => (Done tt, (asm ++ [i])%list).

(** Modelled from the spec: the [ASSERT] macro, as for [Simulator.ASSERT]. *)
Definition EMIT_ASSERT (cond : bool) (text : string) : Emit unit :=
  fun asm => if cond then (Done tt, asm) else (AssertionFailure text, asm).

Declare Scope emit_scope.
Delimit Scope emit_scope with emit.
Notation "p ;; q" := (emit_bind p (fun _ => q))
  (at level 61, right associativity) : emit_scope.

(** ** [RuntimeEntry::CallInternal] *)

Section Emitter.
Variable cfg : Target.

(** The [COMPILE_ASSERT]s in the body of [CallInternal], in source order. *)
Definition COMPILE_ASSERTs : list bool :=
  [ negb (IsAbiPreservedRegister cfg (PP cfg));
    IsCalleeSavedRegister cfg (THR cfg);
    IsCalleeSavedRegister cfg (NULL_REG cfg);
    IsCalleeSavedRegister cfg (WRITE_BARRIER_MASK cfg);
    IsCalleeSavedRegister cfg (DISPATCH_TABLE_REG cfg) ].

(** [argc] is the parameter [argument_count] of the source: the count the
    call site passes, as opposed to the descriptor's own. *)
Definition CallInternal (runtime_entry : RuntimeEntry) (argc : Z) : Emit unit :=
  (if is_leaf runtime_entry then
     EMIT_ASSERT (argc =? argument_count runtime_entry) ASSERT_arity ;;
     emit (lx (TMP2 cfg)
              (mkAddress (THR cfg) (OffsetFromThread cfg runtime_entry))) ;;
     emit (sx (TMP2 cfg) (mkAddress (THR cfg) (vm_tag_offset cfg))) ;;
     emit (ReserveAlignedFrameSpace 0) ;;
     emit (jalr (TMP2 cfg)) ;;
     emit (LoadImmediate (TMP2 cfg) (kDartTagId cfg)) ;;
     emit (sx (TMP2 cfg) (mkAddress (THR cfg) (vm_tag_offset cfg)))
   else
     emit (lx T5 (mkAddress (THR cfg) (OffsetFromThread cfg runtime_entry))) ;;
     emit (li T4 argc) ;;
     emit JumpAndLinkToRuntime)%emit.

End Emitter.

(** ** Building the translation unit *)

(** The preprocessor symbols the file tests.  ([TARGET_ARCH_RISCV32] or
    [TARGET_ARCH_RISCV64] is taken as defined: without it the file is
    empty.) *)
Record BuildFlags : Type := mkBuildFlags {
  USING_SIMULATOR : bool;
  DART_PRECOMPILED_RUNTIME : bool
}.

(** What the compiled file provides: [GetEntryPoint] always, [CallInternal]
    unless [DART_PRECOMPILED_RUNTIME] is defined. *)
Record TranslationUnit : Type := mkTranslationUnit {
  unit_GetEntryPoint : RuntimeEntry -> Resolve uword;
  unit_CallInternal : option (RuntimeEntry -> Z -> Emit unit)
}.

(** Compilation: a [COMPILE_ASSERT] that is part of the build and false
    rejects the file ([None]). *)
Definition compile (flags : BuildFlags) (cfg : Target)
    : option TranslationUnit :=
  if DART_PRECOMPILED_RUNTIME flags then
    Some {| unit_GetEntryPoint := GetEntryPoint (USING_SIMULATOR flags);
            unit_CallInternal := None |}
  else if forallb (fun b => b) (COMPILE_ASSERTs cfg) then
    Some {| unit_GetEntryPoint := GetEntryPoint (USING_SIMULATOR flags);
            unit_CallInternal := Some (CallInternal cfg) |}
  else None.

(** ** Running emitted code *)

(** The integer registers and the memory.  The slots of a [Thread] object are
    word-sized and word-aligned, so memory is kept at word granularity: the
    word stored at each address. *)
Record Machine : Type := mkMachine {
  regs : Register -> uword;
  mem : uword -> uword
}.

(** Register [ZR] reads as zero and ignores writes. *)
Definition get_reg (m : Machine) (r : Register) : uword :=
  if Register_eqb r ZR then 0 else regs m r.

Definition set_reg (r : Register) (v : uword) (m : Machine) : Machine :=
  if Register_eqb r ZR then m
  else {| regs := fun r' => if Register_eqb r' r then v else regs m r';
          mem := mem m |}.

Definition store (a : uword) (v : uword) (m : Machine) : Machine :=
  {| regs := regs m;
     mem := fun a' => if a' =? a then v else mem m a' |}.

(** What an observer of the running code sees: control entering the code at
    some address through [jalr], or entering the shared runtime-call stub,
    each with the machine as it is at that moment. *)
Inductive Event : Type :=
| CallNative (target : uword) (at_entry : Machine)
| CallRuntimeStub (at_entry : Machine).

Section Execution.
Variable cfg : Target.

(** The callees, from entry to return: the code at an address, and the shared
    stub.  [return_address] is the address the call links to. *)
Variable native : uword -> Machine -> Machine.
Variable stub : Machine -> Machine.
Variable return_address : Machine -> uword.

Definition wrap (z : Z) : uword := z mod 2 ^ XLEN cfg.

Definition effective (m : Machine) (a : Address) : uword :=
  match a with
  | mkAddress base offset => wrap (get_reg m base + offset)
  end.

(** Modelled from the spec: the assembler methods [CallInternal] calls (the
    assembler is not among the sources).  [lx] and [sx] load and store one
    word; [ReserveAlignedFrameSpace] lowers [SP] by the space asked for and
    rounds it down to the ABI's alignment, and writes nothing to the stack;
    [jalr] transfers control to the address in its register, linking through
    [RA]; [LoadImmediate] and [li] set a register; [JumpAndLinkToRuntime]
    transfers control to the shared runtime-call stub, linking through
    [RA]. *)
Definition step (i : Instr) (m : Machine) : list Event * Machine :=
  match i with
  | lx rd a => ([], set_reg rd (mem m (effective m a)) m)
  | sx rs a => ([], store (effective m a) (get_reg m rs) m)
  | ReserveAlignedFrameSpace frame_space =>
      ([], set_reg SP (Z.land (wrap (get_reg m SP - frame_space))
                              (Z.lnot (kAbiStackAlignment cfg - 1))) m)
  | jalr rs1 =>
      let target := get_reg m rs1 in
      let m' := set_reg RA (return_address m) m in
      ([CallNative target m'], native target m')
  | LoadImmediate rd imm => ([], set_reg rd imm m)
  | li rd imm => ([], set_reg rd imm m)
  | JumpAndLinkToRuntime =>
      let m' := set_reg RA (return_address m) m in
      ([CallRuntimeStub m'], stub m')
  end.

Fixpoint run (code : list Instr) (m : Machine) : list Event * Machine :=
  match code with
  | [] => ([], m)
  | i :: rest =>
      let (ev, m') := step i m in
      let (evs, m'') := run rest m' in
      ((ev ++ evs)%list, m'')
  end.

(** The address of a slot of the thread object [thr] points to. *)
Definition thread_slot (thr : uword) (offset : Z) : uword :=
  wrap (thr + offset).

End Execution.

(** The role registers the leaf sequence needs apart: the scratch register is
    a real register other than the stack pointer and the thread register
    ([scratch_apart]), and the thread register is neither the stack pointer
    nor the link register. *)
Definition scratch_apart (cfg : Target) : bool :=
  negb (Register_eqb (TMP2 cfg) ZR)
  && negb (Register_eqb (TMP2 cfg) SP)
  && negb (Register_eqb (TMP2 cfg) (THR cfg)).

Definition leaf_roles_apart (cfg : Target) : bool :=
  scratch_apart cfg
  && negb (Register_eqb (THR cfg) SP)
  && negb (Register_eqb (THR cfg) RA).

(** ** A sample target and sample descriptors *)

(** One concrete assignment, to run the definitions on: the thread register
    and the tables in saved registers, the scratch register a temporary, the
    pool pointer an argument register; the saved registers of the C ABI
    preserved. *)
Definition sample_preserved (r : Register) : bool :=
  match r with
  | SP | FP | S1 | S2 | S3 | S4 | S5 | S6 | S7 | S8 | S9 | S10 | S11 => true
  | _ => false
  end.

Definition sample_target : Target :=
  {| THR := S1; TMP2 := T3; PP := A5; NULL_REG := S10;
     WRITE_BARRIER_MASK := S11; DISPATCH_TABLE_REG := S9;
     IsAbiPreservedRegister := sample_preserved;
     IsCalleeSavedRegister := sample_preserved;
     OffsetFromThread := fun e => 1024 + 8 * (function e / 4096);
     vm_tag_offset := 16;
     kDartTagId := 2;
     XLEN := 64;
     kAbiStackAlignment := 16 |}.

Definition Alloc : RuntimeEntry :=
  {| name := "Alloc"; function := 4096; argument_count := 2;
     is_leaf := false; is_float := false |}.

Definition Sine : RuntimeEntry :=
  {| name := "Sine"; function := 8192; argument_count := 1;
     is_leaf := true; is_float := true |}.

Definition OverBudget : RuntimeEntry :=
  {| name := "OverBudget"; function := 12288; argument_count := 5;
     is_leaf := true; is_float := false |}.

(** A thread object at address 65536 whose entry slots hold the entry
    addresses, and a native callee that clobbers the temporaries it may and
    overwrites the VM tag. *)
Definition sample_machine : Machine :=
  {| regs := fun r => match r with S1 => 65536 | SP => 900004 | _ => 7 end;
     mem := fun a => if a =? 65536 + 1032 then 4096
                     else if a =? 65536 + 1040 then 8192
                     else if a =? 65536 + 1048 then 12288
                     else 0 |}.

Definition sample_native (target : uword) (m : Machine) : Machine :=
  set_reg T3 0 (set_reg A0 target (store (65536 + 16) 99 m)).

Definition sample_stub (m : Machine) : Machine := set_reg A0 0 m.

Definition sample_return_address (m : Machine) : uword := 20480.

(** ** The register convention and the redirection adapter, in the spec's words *)

(** The Register Convention Contract: the thread, null, write-barrier and
    dispatch-table registers are callee-saved, and the pool pointer is not
    preserved by the ABI. *)
Definition register_contract (cfg : Target) : Prop :=
  IsCalleeSavedRegister cfg (THR cfg) = true /\
  IsCalleeSavedRegister cfg (NULL_REG cfg) = true /\
  IsCalleeSavedRegister cfg (WRITE_BARRIER_MASK cfg) = true /\
  IsCalleeSavedRegister cfg (DISPATCH_TABLE_REG cfg) = true /\
  IsAbiPreservedRegister cfg (PP cfg) = false.

(** The same target under other answers to the two predicates. *)
Definition with_predicates (cfg : Target) (abi callee : Register -> bool)
    : Target :=
  {| THR := THR cfg; TMP2 := TMP2 cfg; PP := PP cfg; NULL_REG := NULL_REG cfg;
     WRITE_BARRIER_MASK := WRITE_BARRIER_MASK cfg;
     DISPATCH_TABLE_REG := DISPATCH_TABLE_REG cfg;
     IsAbiPreservedRegister := abi;
     IsCalleeSavedRegister := callee;
     OffsetFromThread := OffsetFromThread cfg;
     vm_tag_offset := vm_tag_offset cfg;
     kDartTagId := kDartTagId cfg;
     XLEN := XLEN cfg;
     kAbiStackAlignment := kAbiStackAlignment cfg |}.

(** Modelled from the spec: the Simulator Redirection Adapter, which is not
    among the sources.  [redirect] answers a request with a handle;
    [dispatch s h] is the native implementation the simulator in state [s]
    calls when control reaches [h].  A handle invokes the real implementation
    it was requested for, and keeps doing so as more handles are handed
    out. *)
Definition adapter_contract {SimState : Type}
    (redirect : uword -> CallKind -> Z -> SimState -> uword * SimState)
    (dispatch : SimState -> uword -> option uword) : Prop :=
  (forall f k n s,
      dispatch (snd (redirect f k n s)) (fst (redirect f k n s)) = Some f) /\
  (forall f k n s h g,
      dispatch s h = Some g -> dispatch (snd (redirect f k n s)) h = Some g).

(** The native implementation reached by transferring control to [a]: [a]
    itself on hardware, what the handle dispatches to under simulation. *)
Definition invokes {SimState : Type}
    (dispatch : SimState -> uword -> option uword)
    (USING_SIMULATOR : bool) (s : SimState) (a : uword) : option uword :=
  if USING_SIMULATOR then dispatch s a else Some a.

(** Modelled from the spec: one such adapter, which hands out a fresh handle
    for every request (the spec leaves caching open).  The state lists the
    implementations of the handles handed out so far; a handle is an index
    into it. *)
Module FreshHandles.
Definition SimState : Type := list uword.
Definition redirect (f : uword) (k : CallKind) (n : Z) (s : SimState)
    : uword * SimState :=
  (Z.of_nat (List.length s), (s ++ [f])%list).
Definition dispatch (s : SimState) (h : uword) : option uword :=
  if h <? 0 then None else nth_error s (Z.to_nat h).
End FreshHandles.

(** The instructions of a sequence that read memory. *)
Definition is_load (i : Instr) : bool :=
  match i with
  | lx _ _ => true
  | _ => false
  end.

(** The registers an assembler call writes itself (a callee entered through
    it may write more). *)
Definition written_by (i : Instr) : list Register :=
  match i with
  | lx rd _ => [rd]
  | sx _ _ => []
  | ReserveAlignedFrameSpace _ => [SP]
  | jalr _ => [RA]
  | LoadImmediate rd _ => [rd]
  | li rd _ => [rd]
  | JumpAndLinkToRuntime => [RA]
  end.

(** The registers a call site writes before and after the callee runs: the
    scratch register, the stack pointer and the link register on the leaf
    path; the two stub inputs and the link register on the other. *)
Definition call_site_writes (cfg : Target) (e : RuntimeEntry) : list Register :=
  if is_leaf e then [TMP2 cfg; SP; RA] else [T5; T4; RA].

(** * Properties *)

(** ** The definitions on the sample descriptors *)

Example Sine_under_simulation :
  GetEntryPoint true Sine = RequestRedirect 8192 kLeafFloatRuntimeCall 1 Return.
Proof. reflexivity. Qed.

Example Alloc_under_simulation :
  GetEntryPoint true Alloc = RequestRedirect 4096 kRuntimeCall 2 Return.
Proof. reflexivity. Qed.

Example float_leaf_of_three_under_simulation :
  GetEntryPoint true (mkRuntimeEntry "Pow3" 16384 3 true true)
  = Fatal ASSERT_leaf_budget.
Proof. reflexivity. Qed.

Example negative_count_under_simulation :
  GetEntryPoint true (mkRuntimeEntry "Neg" 16384 (-1) false false)
  = Fatal ASSERT_nonnegative.
Proof. reflexivity. Qed.

Example Sine_call_site :
  CallInternal sample_target Sine 1 []
  = (Done tt,
     [ lx T3 (mkAddress S1 1040); sx T3 (mkAddress S1 16);
       ReserveAlignedFrameSpace 0; jalr T3; LoadImmediate T3 2;
       sx T3 (mkAddress S1 16) ]).
Proof. reflexivity. Qed.

Example Sine_call_site_tag_after_return :
  mem (snd (run sample_target sample_native sample_stub sample_return_address
                (snd (CallInternal sample_target Sine 1 [])) sample_machine))
      (65536 + 16)
  = 2.
Proof. reflexivity. Qed.

(** ** Resolution *)

Lemma GetEntryPoint_simulated_cases (e : RuntimeEntry) :
  GetEntryPoint true e =
    if argument_count e >=? 0 then
      if negb (is_leaf e)
         || (negb (is_float e) && (argument_count e <=? 4))
         || (argument_count e <=? 2)
      then RequestRedirect (function e) (spec_call_kind e) (argument_count e)
                           Return
      else Fatal ASSERT_leaf_budget
    else Fatal ASSERT_nonnegative.
Proof.
  unfold GetEntryPoint, ASSERT, spec_call_kind.
  destruct (argument_count e >=? 0); [|reflexivity].
  destruct (is_leaf e), (is_float e); cbn [negb orb andb];
    try destruct (argument_count e <=? 4);
    try destruct (argument_count e <=? 2); reflexivity.
Qed.

(** The assertion's condition is the spec's budget, for a leaf descriptor. *)
Lemma leaf_budget_condition (e : RuntimeEntry) :
  is_leaf e = true ->
  negb (is_leaf e)
  || (negb (is_float e) && (argument_count e <=? 4))
  || (argument_count e <=? 2) = spec_leaf_budget e.
Proof.
  intros Hleaf. unfold spec_leaf_budget. rewrite Hleaf.
  destruct (is_float e); cbn [negb orb andb]; [reflexivity|].
  destruct (argument_count e <=? 4) eqn:H4; [reflexivity|].
  destruct (argument_count e <=? 2) eqn:H2; [|reflexivity].
  apply Z.leb_le in H2. apply Z.leb_gt in H4. lia.
Qed.

Lemma interp_fatal {A : Type} (SimState : Type)
    (redirect : uword -> CallKind -> Z -> SimState -> uword * SimState)
    (p : Resolve A) (c : string) (s : SimState) :
  p = Fatal c -> interp SimState redirect p s = (AssertionFailure c, s).
Proof. intros ->. reflexivity. Qed.

(** C1.  Under simulation a leaf descriptor whose argument count exceeds the
    budget (four, or two for a float call) never gets as far as the
    redirection request: resolution stops at a failed assertion, which for a
    non-negative count is the budget assertion itself, and no simulator sees a
    request.  A leaf descriptor for which a request is made is within
    budget. *)
Theorem GetEntryPoint_leaf_budget_asserted (e : RuntimeEntry) :
  is_leaf e = true ->
  (spec_leaf_budget e = false ->
     (exists cond, GetEntryPoint true e = Fatal cond) /\
     (0 <= argument_count e ->
      GetEntryPoint true e = Fatal ASSERT_leaf_budget) /\
     (forall (SimState : Type) redirect (s : SimState),
         exists cond,
           interp SimState redirect (GetEntryPoint true e) s
           = (AssertionFailure cond, s))) /\
  (forall f k n cont,
     GetEntryPoint true e = RequestRedirect f k n cont ->
     spec_leaf_budget e = true).
Proof.
  intros Hleaf. rewrite GetEntryPoint_simulated_cases.
  rewrite (leaf_budget_condition e Hleaf).
  split.
  - intros Hbudget. rewrite Hbudget.
    destruct (argument_count e >=? 0) eqn:Hnn.
    + repeat split; intros; eexists || idtac; reflexivity.
    + repeat split; intros; try (eexists; reflexivity).
      rewrite Z.geb_leb in Hnn. apply Z.leb_gt in Hnn. lia.
  - intros f k n cont.
    destruct (argument_count e >=? 0); [|discriminate].
    destruct (spec_leaf_budget e); [reflexivity|discriminate].
Qed.

Lemma GetEntryPoint_leaf_budget_asserted_witness :
  is_leaf OverBudget = true /\
  spec_leaf_budget OverBudget = false /\
  0 <= argument_count OverBudget /\
  (exists cond, GetEntryPoint true OverBudget = Fatal cond) /\
  GetEntryPoint true OverBudget = Fatal ASSERT_leaf_budget.
Proof.
  destruct (GetEntryPoint_leaf_budget_asserted OverBudget eq_refl)
    as [Hfatal _].
  destruct (Hfatal eq_refl) as [Hex [Hbudget _]].
  split; [reflexivity|]. split; [reflexivity|].
  split; [simpl; lia|]. split; [exact Hex|].
  apply Hbudget. simpl. lia.
Defined.

(** C5.  Under simulation the only request resolution ever makes is for the
    triple of the descriptor's function pointer, its call kind and its
    argument count, and the handle that comes back is returned as it is.  The
    request is made for every descriptor that passes the two assertions, and
    so for every float leaf descriptor of one argument, whose request is
    tagged [kLeafFloatRuntimeCall] with count 1. *)
Theorem GetEntryPoint_requests_redirection (e : RuntimeEntry) :
  (forall f k n cont,
     GetEntryPoint true e = RequestRedirect f k n cont ->
     f = function e /\ k = spec_call_kind e /\ n = argument_count e /\
     cont = Return) /\
  (0 <= argument_count e ->
   (is_leaf e = true -> spec_leaf_budget e = true) ->
   GetEntryPoint true e
   = RequestRedirect (function e) (spec_call_kind e) (argument_count e)
                     Return) /\
  (is_leaf e = true -> is_float e = true -> argument_count e = 1 ->
   GetEntryPoint true e
   = RequestRedirect (function e) kLeafFloatRuntimeCall 1 Return).
Proof.
  rewrite GetEntryPoint_simulated_cases. split; [|split].
  - intros f k n cont.
    destruct (argument_count e >=? 0); [|discriminate].
    destruct (_ || _); [|discriminate].
    intros H. inversion H. auto.
  - intros Hnn Hbudget.
    destruct (argument_count e >=? 0) eqn:Hge.
    + destruct (is_leaf e) eqn:Hleaf.
      * rewrite <- Hleaf at 1. rewrite (leaf_budget_condition e Hleaf).
        rewrite (Hbudget eq_refl). reflexivity.
      * reflexivity.
    + rewrite Z.geb_leb in Hge. apply Z.leb_gt in Hge. lia.
  - intros Hleaf Hfloat Hone. unfold spec_call_kind.
    rewrite Hleaf, Hfloat, Hone. reflexivity.
Qed.

Lemma GetEntryPoint_requests_redirection_witness :
  is_leaf Sine = true /\ is_float Sine = true /\ argument_count Sine = 1 /\
  GetEntryPoint true Sine = RequestRedirect 8192 kLeafFloatRuntimeCall 1 Return.
Proof.
  destruct (GetEntryPoint_requests_redirection Sine) as [_ [_ Hsine]].
  split; [reflexivity|]. split; [reflexivity|]. split; [reflexivity|].
  exact (Hsine eq_refl eq_refl eq_refl).
Defined.

(** C6.  Without the simulator resolution is the descriptor's function
    pointer and nothing else: no assertion, no request, and under any
    simulator state the state is left as it was. *)
Theorem GetEntryPoint_normal_mode (e : RuntimeEntry) :
  GetEntryPoint false e = Return (function e) /\
  (forall (SimState : Type) redirect (s : SimState),
      interp SimState redirect (GetEntryPoint false e) s
      = (Done (function e), s)).
Proof. split; reflexivity. Qed.

(** C4, as the claim has it, fails: without the simulator the over-budget
    leaf descriptor resolves to its function pointer, and the emitter, given
    the matching count 5, emits the leaf sequence for it. *)
Lemma over_budget_leaf_is_emitted :
  is_leaf OverBudget = true /\
  is_float OverBudget = false /\
  argument_count OverBudget = 5 /\
  GetEntryPoint false OverBudget = Return 12288 /\
  CallInternal sample_target OverBudget 5 []
  = (Done tt,
     [ lx T3 (mkAddress S1 1048); sx T3 (mkAddress S1 16);
       ReserveAlignedFrameSpace 0; jalr T3; LoadImmediate T3 2;
       sx T3 (mkAddress S1 16) ]).
Proof. repeat split. Qed.

(** ** Emission *)

Lemma CallInternal_leaf (cfg : Target) (e : RuntimeEntry) (argc : Z)
    (asm : Assembler) :
  is_leaf e = true ->
  CallInternal cfg e argc asm =
    if argc =? argument_count e then
      (Done tt,
       (asm ++
        [ lx (TMP2 cfg) (mkAddress (THR cfg) (OffsetFromThread cfg e));
          sx (TMP2 cfg) (mkAddress (THR cfg) (vm_tag_offset cfg));
          ReserveAlignedFrameSpace 0;
          jalr (TMP2 cfg);
          LoadImmediate (TMP2 cfg) (kDartTagId cfg);
          sx (TMP2 cfg) (mkAddress (THR cfg) (vm_tag_offset cfg)) ])%list)
    else (AssertionFailure ASSERT_arity, asm).
Proof.
  intros Hleaf. unfold CallInternal. rewrite Hleaf.
  unfold emit_bind, EMIT_ASSERT, emit.
  destruct (argc =? argument_count e); [|reflexivity].
  repeat rewrite <- app_assoc. reflexivity.
Qed.

Lemma CallInternal_nonleaf (cfg : Target) (e : RuntimeEntry) (argc : Z)
    (asm : Assembler) :
  is_leaf e = false ->
  CallInternal cfg e argc asm =
    (Done tt,
     (asm ++
      [ lx T5 (mkAddress (THR cfg) (OffsetFromThread cfg e));
        li T4 argc;
        JumpAndLinkToRuntime ])%list).
Proof.
  intros Hleaf. unfold CallInternal. rewrite Hleaf.
  unfold emit_bind, emit.
  repeat rewrite <- app_assoc. reflexivity.
Qed.

(** C7.  A leaf call site whose count differs from the descriptor's stops at
    the arity assertion with the buffer as it was: nothing has been emitted.
    A non-leaf call site is emitted whatever the count is, the count going
    into the code unchecked. *)
Theorem CallInternal_arity_check (cfg : Target) (e : RuntimeEntry) (argc : Z)
    (asm : Assembler) :
  (is_leaf e = true -> argc <> argument_count e ->
   CallInternal cfg e argc asm = (AssertionFailure ASSERT_arity, asm)) /\
  (is_leaf e = false ->
   CallInternal cfg e argc asm =
     (Done tt,
      (asm ++
       [ lx T5 (mkAddress (THR cfg) (OffsetFromThread cfg e));
         li T4 argc;
         JumpAndLinkToRuntime ])%list)).
Proof.
  split.
  - intros Hleaf Hne. rewrite (CallInternal_leaf cfg e argc asm Hleaf).
    apply Z.eqb_neq in Hne. rewrite Hne. reflexivity.
  - apply CallInternal_nonleaf.
Qed.

Lemma CallInternal_arity_check_witness :
  (is_leaf Sine = true /\ 3 <> argument_count Sine /\
   CallInternal sample_target Sine 3 [jalr T0]
   = (AssertionFailure ASSERT_arity, [jalr T0])) /\
  (is_leaf Alloc = false /\
   CallInternal sample_target Alloc 7 []
   = (Done tt, [lx T5 (mkAddress S1 1032); li T4 7; JumpAndLinkToRuntime])).
Proof.
  split.
  - assert (Hne : 3 <> argument_count Sine) by (simpl; lia).
    split; [reflexivity|]. split; [exact Hne|].
    exact (proj1 (CallInternal_arity_check sample_target Sine 3 [jalr T0])
                 eq_refl Hne).
  - split; [reflexivity|].
    exact (proj2 (CallInternal_arity_check sample_target Alloc 7 []) eq_refl).
Defined.

(** C4, amended.  For a leaf descriptor of five arguments that is not a float
    call, resolution under simulation stops at the budget assertion and no
    simulator sees a request.  The budget is checked there only: without the
    simulator resolution returns the function pointer, and the emitter, which
    compares the call site's count with the descriptor's and nothing else,
    emits the leaf sequence. *)
Theorem over_budget_leaf_fatal_under_simulation (e : RuntimeEntry) :
  is_leaf e = true -> is_float e = false -> argument_count e = 5 ->
  GetEntryPoint true e = Fatal ASSERT_leaf_budget /\
  (forall (SimState : Type) redirect (s : SimState),
      interp SimState redirect (GetEntryPoint true e) s
      = (AssertionFailure ASSERT_leaf_budget, s)) /\
  GetEntryPoint false e = Return (function e) /\
  (forall cfg asm,
      CallInternal cfg e 5 asm =
        (Done tt,
         (asm ++
          [ lx (TMP2 cfg) (mkAddress (THR cfg) (OffsetFromThread cfg e));
            sx (TMP2 cfg) (mkAddress (THR cfg) (vm_tag_offset cfg));
            ReserveAlignedFrameSpace 0;
            jalr (TMP2 cfg);
            LoadImmediate (TMP2 cfg) (kDartTagId cfg);
            sx (TMP2 cfg) (mkAddress (THR cfg) (vm_tag_offset cfg)) ])%list)).
Proof.
  intros Hleaf Hfloat Hfive.
  assert (Hfatal : GetEntryPoint true e = Fatal ASSERT_leaf_budget).
  { rewrite GetEntryPoint_simulated_cases.
    rewrite Hleaf, Hfloat, Hfive. reflexivity. }
  split; [exact Hfatal|]. split.
  - intros SimState redirect s. apply interp_fatal, Hfatal.
  - split; [reflexivity|].
    intros cfg asm. rewrite (CallInternal_leaf cfg e 5 asm Hleaf).
    rewrite Hfive. reflexivity.
Qed.

Lemma over_budget_leaf_fatal_under_simulation_witness :
  is_leaf OverBudget = true /\ is_float OverBudget = false /\
  argument_count OverBudget = 5 /\
  GetEntryPoint true OverBudget = Fatal ASSERT_leaf_budget.
Proof.
  split; [reflexivity|]. split; [reflexivity|]. split; [reflexivity|].
  exact (proj1 (over_budget_leaf_fatal_under_simulation OverBudget
                  eq_refl eq_refl eq_refl)).
Defined.

(** ** Registers and memory *)

Lemma Register_eqb_neq (a b : Register) :
  negb (Register_eqb a b) = true -> Register_eqb a b = false.
Proof. destruct (Register_eqb a b); [discriminate|reflexivity]. Qed.

Lemma Register_eqb_sym (a b : Register) : Register_eqb a b = Register_eqb b a.
Proof.
  unfold Register_eqb.
  destruct (Register_eq_dec a b), (Register_eq_dec b a); congruence.
Qed.

Lemma Register_eqb_refl (a : Register) : Register_eqb a a = true.
Proof. unfold Register_eqb. destruct (Register_eq_dec a a); congruence. Qed.

Lemma get_reg_set_reg_same (r : Register) (v : uword) (m : Machine) :
  Register_eqb r ZR = false -> get_reg (set_reg r v m) r = v.
Proof.
  intros Hr. unfold get_reg, set_reg. rewrite Hr. cbn [regs].
  rewrite Register_eqb_refl. reflexivity.
Qed.

Lemma get_reg_set_reg_other (r r' : Register) (v : uword) (m : Machine) :
  Register_eqb r' r = false -> get_reg (set_reg r v m) r' = get_reg m r'.
Proof.
  intros Hr. unfold get_reg, set_reg.
  destruct (Register_eqb r ZR); [reflexivity|].
  cbn [regs]. rewrite Hr. reflexivity.
Qed.

Lemma mem_set_reg (r : Register) (v : uword) (m : Machine) :
  mem (set_reg r v m) = mem m.
Proof. unfold set_reg. destruct (Register_eqb r ZR); reflexivity. Qed.

Lemma get_reg_store (a v : uword) (m : Machine) (r : Register) :
  get_reg (store a v m) r = get_reg m r.
Proof. reflexivity. Qed.

Lemma mem_store_same (a v : uword) (m : Machine) : mem (store a v m) a = v.
Proof. cbn [store mem]. rewrite Z.eqb_refl. reflexivity. Qed.

Lemma mem_store_other (a a' v : uword) (m : Machine) :
  a' <> a -> mem (store a v m) a' = mem m a'.
Proof.
  intros Hne. cbn [store mem]. apply Z.eqb_neq in Hne. rewrite Hne.
  reflexivity.
Qed.

Lemma scratch_apart_inv (cfg : Target) :
  scratch_apart cfg = true ->
  Register_eqb (TMP2 cfg) ZR = false /\
  Register_eqb (TMP2 cfg) SP = false /\
  Register_eqb (TMP2 cfg) (THR cfg) = false.
Proof.
  unfold scratch_apart. intros H.
  apply andb_prop in H. destruct H as [H H3].
  apply andb_prop in H. destruct H as [H1 H2].
  auto using Register_eqb_neq.
Qed.

Lemma leaf_roles_apart_inv (cfg : Target) :
  leaf_roles_apart cfg = true ->
  scratch_apart cfg = true /\
  Register_eqb (THR cfg) SP = false /\
  Register_eqb (THR cfg) RA = false.
Proof.
  unfold leaf_roles_apart. intros H.
  apply andb_prop in H. destruct H as [H H3].
  apply andb_prop in H. destruct H as [H1 H2].
  auto using Register_eqb_neq.
Qed.

(** ** Running the two sequences *)

Section Running.
Variable cfg : Target.
Variable native : uword -> Machine -> Machine.
Variable stub : Machine -> Machine.
Variable return_address : Machine -> uword.

Lemma run_cons (i : Instr) (rest : list Instr) (m : Machine) :
  run cfg native stub return_address (i :: rest) m =
    let (ev, m') := step cfg native stub return_address i m in
    let (evs, m'') := run cfg native stub return_address rest m' in
    ((ev ++ evs)%list, m'').
Proof. reflexivity. Qed.

Lemma run_nil (m : Machine) :
  run cfg native stub return_address [] m = ([], m).
Proof. reflexivity. Qed.

Ltac run_step E := rewrite run_cons, E; clear E.

(** The leaf sequence, step by step: the machine on entry to the callee and
    the machine once the sequence is through. *)
Lemma run_leaf_sequence (e : RuntimeEntry) (m : Machine) :
  scratch_apart cfg = true ->
  let thr := get_reg m (THR cfg) in
  let tag_slot := thread_slot cfg thr (vm_tag_offset cfg) in
  let entry := mem m (thread_slot cfg thr (OffsetFromThread cfg e)) in
  let m1 := set_reg (TMP2 cfg) entry m in
  let m2 := store tag_slot entry m1 in
  let m3 := set_reg SP (Z.land (wrap cfg (get_reg m SP - 0))
                               (Z.lnot (kAbiStackAlignment cfg - 1))) m2 in
  let m_call := set_reg RA (return_address m3) m3 in
  let m_ret := native entry m_call in
  let m_fin :=
    store (thread_slot cfg (get_reg m_ret (THR cfg)) (vm_tag_offset cfg))
          (kDartTagId cfg)
          (set_reg (TMP2 cfg) (kDartTagId cfg) m_ret) in
  run cfg native stub return_address
      [ lx (TMP2 cfg) (mkAddress (THR cfg) (OffsetFromThread cfg e));
        sx (TMP2 cfg) (mkAddress (THR cfg) (vm_tag_offset cfg));
        ReserveAlignedFrameSpace 0;
        jalr (TMP2 cfg);
        LoadImmediate (TMP2 cfg) (kDartTagId cfg);
        sx (TMP2 cfg) (mkAddress (THR cfg) (vm_tag_offset cfg)) ] m
  = ([CallNative entry m_call], m_fin).
Proof.
  intros Hapart.
  destruct (scratch_apart_inv cfg Hapart) as [Hzr [Hsp Hthr]].
  assert (Hthr' : Register_eqb (THR cfg) (TMP2 cfg) = false)
    by (rewrite Register_eqb_sym; exact Hthr).
  assert (Hsp' : Register_eqb SP (TMP2 cfg) = false)
    by (rewrite Register_eqb_sym; exact Hsp).
  intros thr tag_slot entry m1 m2 m3 m_call m_ret m_fin.
  assert (E1 : step cfg native stub return_address
                 (lx (TMP2 cfg)
                     (mkAddress (THR cfg) (OffsetFromThread cfg e))) m
               = ([], m1)) by reflexivity.
  assert (E2 : step cfg native stub return_address
                 (sx (TMP2 cfg) (mkAddress (THR cfg) (vm_tag_offset cfg))) m1
               = ([], m2)).
  { cbn [step effective]. unfold m1.
    rewrite (get_reg_set_reg_other _ _ _ _ Hthr').
    rewrite (get_reg_set_reg_same _ _ _ Hzr). reflexivity. }
  assert (E3 : step cfg native stub return_address
                 (ReserveAlignedFrameSpace 0) m2 = ([], m3)).
  { cbn [step]. unfold m2. rewrite get_reg_store. unfold m1.
    rewrite (get_reg_set_reg_other _ _ _ _ Hsp'). reflexivity. }
  assert (E4 : step cfg native stub return_address (jalr (TMP2 cfg)) m3
               = ([CallNative entry m_call], m_ret)).
  { assert (Ht : get_reg m3 (TMP2 cfg) = entry).
    { unfold m3. rewrite (get_reg_set_reg_other _ _ _ _ Hsp).
      unfold m2. rewrite get_reg_store. unfold m1.
      apply (get_reg_set_reg_same _ _ _ Hzr). }
    cbn [step]. rewrite Ht. reflexivity. }
  assert (E5 : step cfg native stub return_address
                 (LoadImmediate (TMP2 cfg) (kDartTagId cfg)) m_ret
               = ([], set_reg (TMP2 cfg) (kDartTagId cfg) m_ret))
    by reflexivity.
  assert (E6 : step cfg native stub return_address
                 (sx (TMP2 cfg) (mkAddress (THR cfg) (vm_tag_offset cfg)))
                 (set_reg (TMP2 cfg) (kDartTagId cfg) m_ret)
               = ([], m_fin)).
  { cbn [step effective].
    rewrite (get_reg_set_reg_other _ _ _ _ Hthr').
    rewrite (get_reg_set_reg_same _ _ _ Hzr). reflexivity. }
  run_step E1. run_step E2. run_step E3. run_step E4. run_step E5.
  run_step E6. rewrite run_nil. reflexivity.
Qed.

(** The non-leaf sequence: the machine on entry to the shared stub. *)
Lemma run_nonleaf_sequence (e : RuntimeEntry) (argc : Z) (m : Machine) :
  let thr := get_reg m (THR cfg) in
  let entry := mem m (thread_slot cfg thr (OffsetFromThread cfg e)) in
  let m2 := set_reg T4 argc (set_reg T5 entry m) in
  let m_stub := set_reg RA (return_address m2) m2 in
  run cfg native stub return_address
      [ lx T5 (mkAddress (THR cfg) (OffsetFromThread cfg e));
        li T4 argc;
        JumpAndLinkToRuntime ] m
  = ([CallRuntimeStub m_stub], stub m_stub).
Proof. reflexivity. Qed.

End Running.

(** C3.  A non-leaf call site, whatever count it passes, is emitted as three
    instructions in this order: the load of the descriptor's slot of the
    thread's entry table (which holds the resolved entry address) into [T5],
    the load of the literal count into [T4], and the transfer to the shared
    runtime-call stub.  Run from any machine, the sequence enters the stub,
    and nothing else, with the slot's word in [T5] and the count in [T4]. *)
Theorem CallInternal_nonleaf_sequence (cfg : Target) (e : RuntimeEntry)
    (argc : Z) (asm : Assembler) :
  is_leaf e = false ->
  CallInternal cfg e argc asm =
    (Done tt,
     (asm ++
      [ lx T5 (mkAddress (THR cfg) (OffsetFromThread cfg e));
        li T4 argc;
        JumpAndLinkToRuntime ])%list) /\
  (forall native stub return_address m,
      exists m_stub,
        run cfg native stub return_address
            (snd (CallInternal cfg e argc [])) m
        = ([CallRuntimeStub m_stub], stub m_stub) /\
        get_reg m_stub T5
        = mem m (thread_slot cfg (get_reg m (THR cfg))
                             (OffsetFromThread cfg e)) /\
        get_reg m_stub T4 = argc).
Proof.
  intros Hleaf. split; [apply CallInternal_nonleaf, Hleaf|].
  intros native stub return_address m.
  rewrite (CallInternal_nonleaf cfg e argc [] Hleaf). cbn [snd app].
  rewrite run_nonleaf_sequence.
  eexists. split; [reflexivity|]. split; reflexivity.
Qed.

Lemma CallInternal_nonleaf_sequence_witness :
  is_leaf Alloc = false /\
  CallInternal sample_target Alloc 2 []
  = (Done tt, [lx T5 (mkAddress S1 1032); li T4 2; JumpAndLinkToRuntime]).
Proof.
  split; [reflexivity|].
  exact (proj1 (CallInternal_nonleaf_sequence sample_target Alloc 2 []
                  eq_refl)).
Defined.

(** C2.  A leaf call site (passing the descriptor's own count) is emitted as
    six instructions in this order: the load of the descriptor's slot of the
    thread's entry table into the scratch register, the store of the scratch
    register into the thread's VM-tag slot, the reservation of aligned stack
    space, the jump through the scratch register, and after it the load of
    [kDartTagId] and its store into the VM-tag slot.  Run on a target whose
    role registers are apart and whose thread register is callee-saved,
    against a callee that preserves the callee-saved registers, the sequence
    enters the code at the slot's address and never the shared stub; on entry
    the tag slot holds that address, the stack pointer has been rounded down
    to the alignment and memory is otherwise as it was (no frame has been
    built); once the sequence is through the tag slot holds [kDartTagId]. *)
Theorem CallInternal_leaf_sequence (cfg : Target) (e : RuntimeEntry)
    (asm : Assembler) :
  is_leaf e = true ->
  CallInternal cfg e (argument_count e) asm =
    (Done tt,
     (asm ++
      [ lx (TMP2 cfg) (mkAddress (THR cfg) (OffsetFromThread cfg e));
        sx (TMP2 cfg) (mkAddress (THR cfg) (vm_tag_offset cfg));
        ReserveAlignedFrameSpace 0;
        jalr (TMP2 cfg);
        LoadImmediate (TMP2 cfg) (kDartTagId cfg);
        sx (TMP2 cfg) (mkAddress (THR cfg) (vm_tag_offset cfg)) ])%list) /\
  (leaf_roles_apart cfg = true ->
   IsCalleeSavedRegister cfg (THR cfg) = true ->
   forall native stub return_address m,
     (forall t m0 r, IsCalleeSavedRegister cfg r = true ->
                     get_reg (native t m0) r = get_reg m0 r) ->
     let thr := get_reg m (THR cfg) in
     let tag_slot := thread_slot cfg thr (vm_tag_offset cfg) in
     let entry := mem m (thread_slot cfg thr (OffsetFromThread cfg e)) in
     exists m_call m_fin,
       run cfg native stub return_address
           (snd (CallInternal cfg e (argument_count e) [])) m
       = ([CallNative entry m_call], m_fin) /\
       mem m_call tag_slot = entry /\
       (forall a, a <> tag_slot -> mem m_call a = mem m a) /\
       get_reg m_call SP
       = Z.land (wrap cfg (get_reg m SP - 0))
                (Z.lnot (kAbiStackAlignment cfg - 1)) /\
       mem m_fin tag_slot = kDartTagId cfg).
Proof.
  intros Hleaf.
  assert (Hemit : forall asm',
    CallInternal cfg e (argument_count e) asm' =
    (Done tt,
     (asm' ++
      [ lx (TMP2 cfg) (mkAddress (THR cfg) (OffsetFromThread cfg e));
        sx (TMP2 cfg) (mkAddress (THR cfg) (vm_tag_offset cfg));
        ReserveAlignedFrameSpace 0;
        jalr (TMP2 cfg);
        LoadImmediate (TMP2 cfg) (kDartTagId cfg);
        sx (TMP2 cfg) (mkAddress (THR cfg) (vm_tag_offset cfg)) ])%list)).
  { intros asm'. rewrite (CallInternal_leaf cfg e _ asm' Hleaf).
    rewrite Z.eqb_refl. reflexivity. }
  split; [apply Hemit|].
  intros Hroles Hsaved native stub return_address m Hnative thr tag_slot entry.
  destruct (leaf_roles_apart_inv cfg Hroles) as [Hscratch [Hthr_sp Hthr_ra]].
  destruct (scratch_apart_inv cfg Hscratch) as [Hzr [Hsp Hthr]].
  assert (Hthr' : Register_eqb (THR cfg) (TMP2 cfg) = false)
    by (rewrite Register_eqb_sym; exact Hthr).
  rewrite Hemit. cbn [snd app].
  rewrite (run_leaf_sequence cfg native stub return_address e m Hscratch).
  fold thr. fold tag_slot. fold entry.
  eexists. eexists. split; [reflexivity|].
  split; [|split; [|split]].
  - rewrite !mem_set_reg. apply mem_store_same.
  - intros a Ha. rewrite !mem_set_reg.
    rewrite (mem_store_other _ _ _ _ Ha). rewrite mem_set_reg. reflexivity.
  - rewrite (get_reg_set_reg_other RA SP) by reflexivity.
    apply get_reg_set_reg_same. reflexivity.
  - rewrite (Hnative _ _ _ Hsaved).
    rewrite (get_reg_set_reg_other _ _ _ _ Hthr_ra).
    rewrite (get_reg_set_reg_other _ _ _ _ Hthr_sp).
    rewrite get_reg_store.
    rewrite (get_reg_set_reg_other _ _ _ _ Hthr').
    fold thr. fold tag_slot. apply mem_store_same.
Qed.

Lemma sample_native_preserves (t : uword) (m0 : Machine) (r : Register) :
  sample_preserved r = true ->
  get_reg (sample_native t m0) r = get_reg m0 r.
Proof. destruct r; intros H; try discriminate H; reflexivity. Qed.

Lemma CallInternal_leaf_sequence_witness :
  is_leaf Sine = true /\
  leaf_roles_apart sample_target = true /\
  IsCalleeSavedRegister sample_target (THR sample_target) = true /\
  exists m_call m_fin,
    run sample_target sample_native sample_stub sample_return_address
        (snd (CallInternal sample_target Sine 1 [])) sample_machine
    = ([CallNative 8192 m_call], m_fin) /\
    mem m_call (65536 + 16) = 8192 /\
    mem m_fin (65536 + 16) = 2.
Proof.
  split; [reflexivity|]. split; [reflexivity|]. split; [reflexivity|].
  destruct (proj2 (CallInternal_leaf_sequence sample_target Sine [] eq_refl)
                  eq_refl eq_refl
                  sample_native sample_stub sample_return_address
                  sample_machine sample_native_preserves)
    as [m_call [m_fin [Hrun [Htag [_ [_ Hfin]]]]]].
  exists m_call, m_fin.
  split; [exact Hrun|]. split; [exact Htag|exact Hfin].
Defined.

(** C10.  In the leaf sequence the word stored into the VM-tag slot and the
    address jumped to are one and the same: the sequence reads memory once,
    the descriptor's slot of the thread's entry table, into the scratch
    register, and on a target whose scratch register is apart from the zero
    register, the stack pointer and the thread register, the code entered is
    the one at the address that slot holds, with the thread's VM-tag slot
    holding that same address on entry. *)
Theorem leaf_call_vm_tag_is_jump_target (cfg : Target) (e : RuntimeEntry) :
  is_leaf e = true ->
  scratch_apart cfg = true ->
  forall native stub return_address m entry,
    mem m (thread_slot cfg (get_reg m (THR cfg)) (OffsetFromThread cfg e))
    = entry ->
    exists code m_call,
      CallInternal cfg e (argument_count e) [] = (Done tt, code) /\
      List.length (filter is_load code) = 1%nat /\
      fst (run cfg native stub return_address code m)
      = [CallNative entry m_call] /\
      mem m_call (thread_slot cfg (get_reg m (THR cfg)) (vm_tag_offset cfg))
      = entry.
Proof.
  intros Hleaf Hscratch native stub return_address m entry Hentry.
  rewrite (CallInternal_leaf cfg e _ [] Hleaf), Z.eqb_refl. cbn [app].
  eexists. eexists. split; [reflexivity|]. split; [reflexivity|].
  rewrite (run_leaf_sequence cfg native stub return_address e m Hscratch).
  rewrite Hentry. cbn [fst]. split; [reflexivity|].
  rewrite !mem_set_reg. apply mem_store_same.
Qed.

Lemma leaf_call_vm_tag_is_jump_target_witness :
  is_leaf Sine = true /\
  scratch_apart sample_target = true /\
  mem sample_machine (65536 + 1040) = 8192 /\
  exists code m_call,
    CallInternal sample_target Sine 1 [] = (Done tt, code) /\
    fst (run sample_target sample_native sample_stub sample_return_address
             code sample_machine)
    = [CallNative 8192 m_call] /\
    mem m_call (65536 + 16) = 8192.
Proof.
  split; [reflexivity|]. split; [reflexivity|]. split; [reflexivity|].
  destruct (leaf_call_vm_tag_is_jump_target sample_target Sine
              eq_refl eq_refl
              sample_native sample_stub sample_return_address
              sample_machine 8192 eq_refl)
    as [code [m_call [Hcode [_ [Hrun Htag]]]]].
  exists code, m_call.
  split; [exact Hcode|]. split; [exact Hrun|exact Htag].
Defined.

(** ** The register convention *)

Lemma COMPILE_ASSERTs_contract (cfg : Target) :
  forallb (fun b => b) (COMPILE_ASSERTs cfg) = true <-> register_contract cfg.
Proof.
  unfold COMPILE_ASSERTs, register_contract. cbn [forallb].
  rewrite !andb_true_iff, negb_true_iff. tauto.
Qed.

(** C8.  The register convention is checked when the file is compiled and
    never later.  Every build that contains the emitter satisfies the
    contract: thread, null, write-barrier-mask and dispatch-table registers
    callee-saved, pool pointer not preserved by the ABI.  With the emitter
    part of the build, the file compiles exactly when the contract holds.
    The emitter itself does not look at the two predicates: under any other
    answers it emits the same code and fails the same assertion. *)
Theorem register_contract_checked_at_build (flags : BuildFlags) (cfg : Target) :
  (forall tu emitter,
      compile flags cfg = Some tu ->
      unit_CallInternal tu = Some emitter ->
      register_contract cfg /\ emitter = CallInternal cfg) /\
  (DART_PRECOMPILED_RUNTIME flags = false ->
   (compile flags cfg <> None <-> register_contract cfg)) /\
  (forall abi callee e argc asm,
      CallInternal (with_predicates cfg abi callee) e argc asm
      = CallInternal cfg e argc asm).
Proof.
  split; [|split].
  - intros tu emitter. unfold compile.
    destruct (DART_PRECOMPILED_RUNTIME flags).
    + intros H. inversion H; subst. discriminate.
    + destruct (forallb _ _) eqn:Hasserts; [|discriminate].
      intros H. inversion H; subst. cbn [unit_CallInternal].
      intros He. inversion He; subst.
      split; [apply COMPILE_ASSERTs_contract, Hasserts|reflexivity].
  - intros Hflag. unfold compile. rewrite Hflag.
    rewrite <- COMPILE_ASSERTs_contract.
    destruct (forallb _ _); split; congruence.
  - reflexivity.
Qed.

Lemma register_contract_checked_at_build_witness :
  DART_PRECOMPILED_RUNTIME (mkBuildFlags false false) = false /\
  compile (mkBuildFlags false false) sample_target <> None /\
  register_contract sample_target.
Proof.
  split; [reflexivity|].
  assert (Hok : compile (mkBuildFlags false false) sample_target <> None)
    by discriminate.
  split; [exact Hok|].
  exact (proj1 (proj1 (proj2 (register_contract_checked_at_build
                                (mkBuildFlags false false) sample_target))
                      eq_refl) Hok).
Defined.

(** ** Resolving twice *)

Lemma GetEntryPoint_fields (sim : bool) (e e' : RuntimeEntry) :
  function e' = function e ->
  argument_count e' = argument_count e ->
  is_leaf e' = is_leaf e ->
  is_float e' = is_float e ->
  GetEntryPoint sim e' = GetEntryPoint sim e.
Proof.
  intros Hf Hn Hl Hfl. unfold GetEntryPoint.
  rewrite Hf, Hn, Hl, Hfl. reflexivity.
Qed.

Lemma FreshHandles_contract :
  adapter_contract FreshHandles.redirect FreshHandles.dispatch.
Proof.
  unfold adapter_contract, FreshHandles.redirect, FreshHandles.dispatch.
  cbn [fst snd]. split.
  - intros f k n s.
    destruct (Z.of_nat (List.length s) <? 0) eqn:Hneg.
    + apply Z.ltb_lt in Hneg. lia.
    + rewrite Nat2Z.id, nth_error_app2 by apply Nat.le_refl.
      rewrite Nat.sub_diag. reflexivity.
  - intros f k n s h g. destruct (h <? 0); [discriminate|].
    intros Hg. rewrite nth_error_app1; [exact Hg|].
    apply nth_error_Some. congruence.
Qed.

Section Idempotence.
Variable SimState : Type.
Variable redirect : uword -> CallKind -> Z -> SimState -> uword * SimState.
Variable dispatch : SimState -> uword -> option uword.
Hypothesis Hadapter : adapter_contract redirect dispatch.

(** C9.  Resolving a descriptor twice in a row, in either mode: if the first
    resolution returns a target, so does the second, and once both are done
    the two targets invoke the same native implementation, the descriptor's
    own (under simulation through whatever handles the adapter gave, which
    may differ); if the first stops at an assertion, the second stops at the
    same one and the simulator has seen nothing.  Without the simulator the
    result is the function pointer and the state is untouched.  In a fixed
    mode, what resolution does is determined by the descriptor's function
    pointer, argument count, leaf flag and float flag. *)
Theorem GetEntryPoint_idempotent (sim : bool) (e : RuntimeEntry)
    (s0 : SimState) :
  let r1 := interp SimState redirect (GetEntryPoint sim e) s0 in
  let r2 := interp SimState redirect (GetEntryPoint sim e) (snd r1) in
  (forall a1, fst r1 = Done a1 ->
     exists a2, fst r2 = Done a2 /\
       invokes dispatch sim (snd r2) a1 = Some (function e) /\
       invokes dispatch sim (snd r2) a2 = Some (function e)) /\
  (forall c, fst r1 = AssertionFailure c ->
     fst r2 = AssertionFailure c /\ snd r2 = s0) /\
  (sim = false -> r1 = (Done (function e), s0)) /\
  (forall e',
     function e' = function e ->
     argument_count e' = argument_count e ->
     is_leaf e' = is_leaf e ->
     is_float e' = is_float e ->
     GetEntryPoint sim e' = GetEntryPoint sim e).
Proof.
  destruct Hadapter as [Hfresh Hstable].
  intros r1 r2. subst r1 r2.
  split; [|split; [|split]].
  - destruct sim.
    + rewrite GetEntryPoint_simulated_cases.
      destruct (argument_count e >=? 0); [|discriminate].
      destruct (_ || _); [|discriminate].
      cbn [interp].
      pose proof (Hfresh (function e) (spec_call_kind e) (argument_count e) s0)
        as H1.
      destruct (redirect (function e) (spec_call_kind e) (argument_count e) s0)
        as [h1 s1].
      cbn [fst snd] in *.
      pose proof (Hfresh (function e) (spec_call_kind e) (argument_count e) s1)
        as H2.
      pose proof (Hstable (function e) (spec_call_kind e) (argument_count e)
                          s1 h1 (function e) H1) as H12.
      destruct (redirect (function e) (spec_call_kind e) (argument_count e) s1)
        as [h2 s2].
      cbn [fst snd] in *.
      intros a1 Ha1. inversion Ha1; subst a1.
      exists h2. unfold invokes. auto.
    + cbn. intros a1 Ha1. inversion Ha1; subst a1.
      exists (function e). auto.
  - destruct sim.
    + rewrite GetEntryPoint_simulated_cases.
      destruct (argument_count e >=? 0); [|cbn; auto].
      destruct (_ || _); [|cbn; auto].
      cbn [interp].
      destruct (redirect (function e) (spec_call_kind e) (argument_count e) s0)
        as [h1 s1].
      cbn [fst snd].
      destruct (redirect (function e) (spec_call_kind e) (argument_count e) s1)
        as [h2 s2].
      cbn [fst]. discriminate.
    + cbn. discriminate.
  - intros ->. reflexivity.
  - intros e'. apply GetEntryPoint_fields.
Qed.

End Idempotence.

Lemma GetEntryPoint_idempotent_witness :
  adapter_contract FreshHandles.redirect FreshHandles.dispatch /\
  fst (interp FreshHandles.SimState FreshHandles.redirect
              (GetEntryPoint true Sine) []) = Done 0 /\
  exists a2,
    fst (interp FreshHandles.SimState FreshHandles.redirect
                (GetEntryPoint true Sine) [8192]) = Done a2 /\
    FreshHandles.dispatch [8192; 8192] 0 = Some 8192 /\
    FreshHandles.dispatch [8192; 8192] a2 = Some 8192.
Proof.
  split; [exact FreshHandles_contract|]. split; [reflexivity|].
  exact (proj1 (GetEntryPoint_idempotent FreshHandles.SimState
                  FreshHandles.redirect FreshHandles.dispatch
                  FreshHandles_contract true Sine [])
               0 eq_refl).
Defined.

(** * Further properties of the two functions *)

(** ** Which descriptors resolve under simulation *)

(** Under simulation resolution has three outcomes and each is decided by the
    descriptor alone: the first assertion fails exactly for a negative count;
    the budget assertion fails exactly for a leaf descriptor with a
    non-negative count over its budget; the request is made exactly when the
    count is non-negative and, for a leaf descriptor, within budget.  A
    non-leaf descriptor has no upper bound. *)
Theorem GetEntryPoint_simulated_acceptance (e : RuntimeEntry) :
  (GetEntryPoint true e = Fatal ASSERT_nonnegative <-> argument_count e < 0) /\
  (GetEntryPoint true e = Fatal ASSERT_leaf_budget <->
     0 <= argument_count e /\ is_leaf e = true /\
     spec_leaf_budget e = false) /\
  (GetEntryPoint true e
   = RequestRedirect (function e) (spec_call_kind e) (argument_count e) Return
   <-> 0 <= argument_count e /\
       (is_leaf e = true -> spec_leaf_budget e = true)).
Proof.
  rewrite GetEntryPoint_simulated_cases.
  assert (Hcond : is_leaf e = true ->
                  negb (is_leaf e)
                  || (negb (is_float e) && (argument_count e <=? 4))
                  || (argument_count e <=? 2) = spec_leaf_budget e)
    by apply leaf_budget_condition.
  assert (Hnonleaf : is_leaf e = false ->
                     negb (is_leaf e)
                     || (negb (is_float e) && (argument_count e <=? 4))
                     || (argument_count e <=? 2) = true)
    by (intros ->; reflexivity).
  unfold ASSERT_nonnegative, ASSERT_leaf_budget.
  destruct (argument_count e >=? 0) eqn:Hge;
    rewrite Z.geb_leb in Hge;
    [apply Z.leb_le in Hge | apply Z.leb_gt in Hge].
  - destruct (is_leaf e) eqn:Hleaf.
    + rewrite (Hcond eq_refl). clear Hcond Hnonleaf.
      destruct (spec_leaf_budget e);
        intuition (try discriminate; try lia; try congruence).
    + rewrite (Hnonleaf eq_refl). clear Hcond Hnonleaf.
      intuition (try discriminate; try lia; try congruence).
  - clear Hcond Hnonleaf.
    intuition (try discriminate; try lia; try congruence).
Qed.

(** The two assertions together bound what a leaf call site passes: when a
    leaf descriptor resolves under simulation and a call site for it is
    emitted, the count the call site passes lies between zero and four, or
    between zero and two for a float call. *)
Theorem leaf_call_site_within_budget (cfg : Target) (e : RuntimeEntry)
    (argc : Z) (asm : Assembler) :
  is_leaf e = true ->
  (exists f k n cont, GetEntryPoint true e = RequestRedirect f k n cont) ->
  fst (CallInternal cfg e argc asm) = Done tt ->
  0 <= argc <= (if is_float e then 2 else 4).
Proof.
  intros Hleaf [f [k [n [cont Hreq]]]] Hdone.
  rewrite (CallInternal_leaf cfg e argc asm Hleaf) in Hdone.
  destruct (argc =? argument_count e) eqn:Heq; [|discriminate Hdone].
  apply Z.eqb_eq in Heq. subst argc.
  rewrite GetEntryPoint_simulated_cases in Hreq.
  destruct (argument_count e >=? 0) eqn:Hge; [|discriminate Hreq].
  rewrite Z.geb_leb in Hge. apply Z.leb_le in Hge.
  rewrite (leaf_budget_condition e Hleaf) in Hreq.
  unfold spec_leaf_budget in Hreq.
  destruct (is_float e).
  - destruct (argument_count e <=? 2) eqn:Hle; [|discriminate Hreq].
    apply Z.leb_le in Hle. lia.
  - destruct (argument_count e <=? 4) eqn:Hle; [|discriminate Hreq].
    apply Z.leb_le in Hle. lia.
Qed.

Lemma leaf_call_site_within_budget_witness :
  is_leaf Sine = true /\
  (exists f k n cont, GetEntryPoint true Sine = RequestRedirect f k n cont) /\
  fst (CallInternal sample_target Sine 1 []) = Done tt /\
  0 <= 1 <= 2.
Proof.
  assert (Hreq : exists f k n cont,
             GetEntryPoint true Sine = RequestRedirect f k n cont).
  { exists 8192, kLeafFloatRuntimeCall, 1, Return. reflexivity. }
  split; [reflexivity|]. split; [exact Hreq|]. split; [reflexivity|].
  exact (leaf_call_site_within_budget sample_target Sine 1 []
           eq_refl Hreq eq_refl).
Defined.

(** ** Emission and the buffer *)


(** ** What the call sites leave alone *)

Lemma Register_eqb_false (a b : Register) : a <> b -> Register_eqb a b = false.
Proof.
  intros Hne. unfold Register_eqb.
  destruct (Register_eq_dec a b); [contradiction|reflexivity].
Qed.

Lemma get_reg_set_reg_apart (r r' : Register) (v : uword) (m : Machine) :
  r' <> r -> get_reg (set_reg r v m) r' = get_reg m r'.
Proof. intros Hne. apply get_reg_set_reg_other, Register_eqb_false, Hne. Qed.

Section Preservation.
Variable cfg : Target.
Variable native : uword -> Machine -> Machine.
Variable stub : Machine -> Machine.
Variable return_address : Machine -> uword.
Variable r : Register.
Hypothesis native_preserves :
  forall t m0, get_reg (native t m0) r = get_reg m0 r.
Hypothesis stub_preserves :
  forall m0, get_reg (stub m0) r = get_reg m0 r.

Lemma step_preserves (i : Instr) (m : Machine) :
  ~ In r (written_by i) ->
  get_reg (snd (step cfg native stub return_address i m)) r = get_reg m r.
Proof.
  destruct i; cbn [written_by step snd In]; intros Hout.
  - apply get_reg_set_reg_apart. intuition congruence.
  - reflexivity.
  - apply get_reg_set_reg_apart. intuition congruence.
  - rewrite native_preserves. apply get_reg_set_reg_apart. intuition congruence.
  - apply get_reg_set_reg_apart. intuition congruence.
  - apply get_reg_set_reg_apart. intuition congruence.
  - rewrite stub_preserves. apply get_reg_set_reg_apart. intuition congruence.
Qed.

Lemma run_preserves (code : list Instr) :
  forall m,
    (forall i, In i code -> ~ In r (written_by i)) ->
    get_reg (snd (run cfg native stub return_address code m)) r = get_reg m r.
Proof.
  induction code as [|i rest IH]; intros m Hout; [reflexivity|].
  rewrite run_cons.
  pose proof (step_preserves i m (Hout i (or_introl eq_refl))) as Hstep.
  destruct (step cfg native stub return_address i m) as [ev m'].
  cbn [snd] in Hstep.
  pose proof (IH m' (fun j Hj => Hout j (or_intror Hj))) as Hrest.
  destruct (run cfg native stub return_address rest m') as [evs m''].
  cbn [snd] in *. congruence.
Qed.

End Preservation.

(** A register that the callees preserve and that the call site does not
    write itself (the scratch register, the stack pointer and the link
    register on the leaf path; [T5], [T4] and the link register on the other)
    holds after the call site what it held before.  This is what the static
    assertions on the thread, null, write-barrier and dispatch-table
    registers are for: the emitted code saves and restores none of them. *)
Theorem call_site_preserves_register (cfg : Target) (e : RuntimeEntry)
    (argc : Z) (code : list Instr)
    (native : uword -> Machine -> Machine) (stub : Machine -> Machine)
    (return_address : Machine -> uword) (r : Register) (m : Machine) :
  CallInternal cfg e argc [] = (Done tt, code) ->
  (forall t m0, get_reg (native t m0) r = get_reg m0 r) ->
  (forall m0, get_reg (stub m0) r = get_reg m0 r) ->
  ~ In r (call_site_writes cfg e) ->
  get_reg (snd (run cfg native stub return_address code m)) r = get_reg m r.
Proof.
  intros Hcode Hnative Hstub Hout.
  apply run_preserves; [exact Hnative|exact Hstub|].
  unfold call_site_writes in Hout.
  destruct (is_leaf e) eqn:Hleaf.
  - rewrite (CallInternal_leaf cfg e argc [] Hleaf) in Hcode.
    destruct (argc =? argument_count e); [|discriminate Hcode].
    inversion Hcode; subst code. cbn [app In] in *.
    intros i Hi.
    repeat (destruct Hi as [Hi|Hi]; [subst i; cbn [written_by In]; tauto|]).
    contradiction.
  - rewrite (CallInternal_nonleaf cfg e argc [] Hleaf) in Hcode.
    inversion Hcode; subst code. cbn [app In] in *.
    intros i Hi.
    repeat (destruct Hi as [Hi|Hi]; [subst i; cbn [written_by In]; tauto|]).
    contradiction.
Qed.

Lemma sample_native_preserves_S10 (t : uword) (m0 : Machine) :
  get_reg (sample_native t m0) S10 = get_reg m0 S10.
Proof. reflexivity. Qed.

Lemma sample_stub_preserves_S10 (m0 : Machine) :
  get_reg (sample_stub m0) S10 = get_reg m0 S10.
Proof. reflexivity. Qed.

Lemma call_site_preserves_register_witness :
  CallInternal sample_target Sine 1 []
  = (Done tt,
     [ lx T3 (mkAddress S1 1040); sx T3 (mkAddress S1 16);
       ReserveAlignedFrameSpace 0; jalr T3; LoadImmediate T3 2;
       sx T3 (mkAddress S1 16) ]) /\
  ~ In S10 (call_site_writes sample_target Sine) /\
  get_reg (snd (run sample_target sample_native sample_stub
                    sample_return_address
                    [ lx T3 (mkAddress S1 1040); sx T3 (mkAddress S1 16);
                      ReserveAlignedFrameSpace 0; jalr T3; LoadImmediate T3 2;
                      sx T3 (mkAddress S1 16) ]
                    sample_machine)) S10
  = get_reg sample_machine S10.
Proof.
  assert (Hout : ~ In S10 (call_site_writes sample_target Sine)).
  { cbn. intros [H|[H|[H|H]]]; try discriminate H; exact H. }
  split; [reflexivity|]. split; [exact Hout|].
  exact (call_site_preserves_register sample_target Sine 1 _
           sample_native sample_stub sample_return_address S10 sample_machine
           eq_refl sample_native_preserves_S10 sample_stub_preserves_S10 Hout).
Defined.

(** ** The machine on entry to the callee and after the leaf sequence *)

(** The leaf sequence hands the callee the machine as the caller set it up:
    on entry every register other than the scratch register, the stack
    pointer and the link register holds what it held before the sequence, the
    argument registers among them.  And it restores nothing: once the
    sequence is through, the scratch register holds [kDartTagId] and every
    other register, the pool pointer and the stack pointer included, is
    exactly as the callee returned it. *)
Theorem leaf_call_saves_and_restores_nothing (cfg : Target) (e : RuntimeEntry)
    (native : uword -> Machine -> Machine) (stub : Machine -> Machine)
    (return_address : Machine -> uword) (m : Machine) :
  is_leaf e = true ->
  scratch_apart cfg = true ->
  exists target m_call,
    fst (run cfg native stub return_address
             (snd (CallInternal cfg e (argument_count e) [])) m)
    = [CallNative target m_call] /\
    (forall r, r <> TMP2 cfg -> r <> SP -> r <> RA ->
               get_reg m_call r = get_reg m r) /\
    get_reg (snd (run cfg native stub return_address
                      (snd (CallInternal cfg e (argument_count e) [])) m))
            (TMP2 cfg)
    = kDartTagId cfg /\
    (forall r, r <> TMP2 cfg ->
               get_reg (snd (run cfg native stub return_address
                                 (snd (CallInternal cfg e (argument_count e)
                                                    [])) m)) r
               = get_reg (native target m_call) r).
Proof.
  intros Hleaf Hscratch.
  destruct (scratch_apart_inv cfg Hscratch) as [Hzr _].
  rewrite (CallInternal_leaf cfg e _ [] Hleaf), Z.eqb_refl. cbn [snd app].
  rewrite (run_leaf_sequence cfg native stub return_address e m Hscratch).
  cbn [fst snd].
  eexists. eexists. split; [reflexivity|]. split; [|split].
  - intros r Htmp Hsp Hra.
    rewrite (get_reg_set_reg_apart _ _ _ _ Hra).
    rewrite (get_reg_set_reg_apart _ _ _ _ Hsp).
    rewrite get_reg_store. apply get_reg_set_reg_apart, Htmp.
  - rewrite get_reg_store. apply get_reg_set_reg_same, Hzr.
  - intros r Htmp. rewrite get_reg_store.
    apply get_reg_set_reg_apart, Htmp.
Qed.

Lemma leaf_call_saves_and_restores_nothing_witness :
  is_leaf Sine = true /\
  scratch_apart sample_target = true /\
  exists target m_call,
    fst (run sample_target sample_native sample_stub sample_return_address
             (snd (CallInternal sample_target Sine 1 [])) sample_machine)
    = [CallNative target m_call] /\
    get_reg m_call A0 = get_reg sample_machine A0.
Proof.
  split; [reflexivity|]. split; [reflexivity|].
  destruct (leaf_call_saves_and_restores_nothing sample_target Sine
              sample_native sample_stub sample_return_address sample_machine
              eq_refl eq_refl)
    as [target [m_call [Hrun [Hentry _]]]].
  exists target, m_call. split; [exact Hrun|].
  apply Hentry; discriminate.
Defined.

Lemma land_lnot_pow2 (a k : Z) :
  0 <= k -> Z.land a (Z.lnot (2 ^ k - 1)) = a - a mod 2 ^ k.
Proof.
  intros Hk.
  replace (2 ^ k - 1) with (Z.ones k)
    by (rewrite Z.ones_equiv; apply Z.sub_1_r).
  rewrite <- Z.ldiff_land, Z.ldiff_ones_r by exact Hk.
  rewrite Z.shiftl_mul_pow2, Z.shiftr_div_pow2 by exact Hk.
  pose proof (Z.pow_pos_nonneg 2 k ltac:(lia) Hk) as Hpos.
  pose proof (Z.div_mod a (2 ^ k) ltac:(lia)) as Hdm. lia.
Qed.

(** The leaf sequence reserves no stack space beyond alignment: with an
    alignment of [2 ^ k], the callee is entered with the stack pointer
    rounded down to the next multiple of the alignment, less than one
    alignment below where it was, and the sequence does not move it back. *)
Theorem leaf_call_stack_pointer_rounded_down (cfg : Target) (e : RuntimeEntry)
    (native : uword -> Machine -> Machine) (stub : Machine -> Machine)
    (return_address : Machine -> uword) (m : Machine) (k : Z) :
  is_leaf e = true ->
  scratch_apart cfg = true ->
  0 <= k ->
  kAbiStackAlignment cfg = 2 ^ k ->
  0 <= get_reg m SP < 2 ^ XLEN cfg ->
  exists target m_call,
    fst (run cfg native stub return_address
             (snd (CallInternal cfg e (argument_count e) [])) m)
    = [CallNative target m_call] /\
    get_reg m_call SP = get_reg m SP - get_reg m SP mod 2 ^ k /\
    get_reg m_call SP mod 2 ^ k = 0 /\
    get_reg m SP - 2 ^ k < get_reg m_call SP <= get_reg m SP /\
    get_reg (snd (run cfg native stub return_address
                      (snd (CallInternal cfg e (argument_count e) [])) m)) SP
    = get_reg (native target m_call) SP.
Proof.
  intros Hleaf Hscratch Hk Halign Hrange.
  destruct (scratch_apart_inv cfg Hscratch) as [_ [Hsp _]].
  assert (Hsp' : Register_eqb SP (TMP2 cfg) = false)
    by (rewrite Register_eqb_sym; exact Hsp).
  rewrite (CallInternal_leaf cfg e _ [] Hleaf), Z.eqb_refl. cbn [snd app].
  rewrite (run_leaf_sequence cfg native stub return_address e m Hscratch).
  cbn [fst snd].
  eexists. eexists. split; [reflexivity|].
  pose proof (Z.pow_pos_nonneg 2 k ltac:(lia) Hk) as Hpos.
  assert (Hentry :
    get_reg
      (set_reg RA
         (return_address
            (set_reg SP
               (Z.land (wrap cfg (get_reg m SP - 0))
                       (Z.lnot (kAbiStackAlignment cfg - 1)))
               (store
                  (thread_slot cfg (get_reg m (THR cfg)) (vm_tag_offset cfg))
                  (mem m (thread_slot cfg (get_reg m (THR cfg))
                                      (OffsetFromThread cfg e)))
                  (set_reg (TMP2 cfg)
                     (mem m (thread_slot cfg (get_reg m (THR cfg))
                                         (OffsetFromThread cfg e))) m))))
         (set_reg SP
            (Z.land (wrap cfg (get_reg m SP - 0))
                    (Z.lnot (kAbiStackAlignment cfg - 1)))
            (store
               (thread_slot cfg (get_reg m (THR cfg)) (vm_tag_offset cfg))
               (mem m (thread_slot cfg (get_reg m (THR cfg))
                                   (OffsetFromThread cfg e)))
               (set_reg (TMP2 cfg)
                  (mem m (thread_slot cfg (get_reg m (THR cfg))
                                      (OffsetFromThread cfg e))) m)))) SP
    = get_reg m SP - get_reg m SP mod 2 ^ k).
  { rewrite (get_reg_set_reg_other RA SP) by reflexivity.
    rewrite get_reg_set_reg_same by reflexivity.
    unfold wrap. rewrite Z.sub_0_r, (Z.mod_small _ _ Hrange), Halign.
    apply land_lnot_pow2, Hk. }
  rewrite Hentry.
  pose proof (Z.mod_pos_bound (get_reg m SP) (2 ^ k) Hpos) as Hmod.
  split; [reflexivity|]. split; [|split].
  - rewrite Zminus_mod_idemp_r, Z.sub_diag. apply Z.mod_0_l. lia.
  - lia.
  - rewrite get_reg_store. apply get_reg_set_reg_other, Hsp'.
Qed.

Lemma leaf_call_stack_pointer_rounded_down_witness :
  is_leaf Sine = true /\
  scratch_apart sample_target = true /\
  0 <= 4 /\
  kAbiStackAlignment sample_target = 2 ^ 4 /\
  0 <= get_reg sample_machine SP < 2 ^ XLEN sample_target /\
  exists target m_call,
    fst (run sample_target sample_native sample_stub sample_return_address
             (snd (CallInternal sample_target Sine 1 [])) sample_machine)
    = [CallNative target m_call] /\
    get_reg m_call SP = 900004 - 900004 mod 2 ^ 4.
Proof.
  assert (Hrange : 0 <= get_reg sample_machine SP < 2 ^ XLEN sample_target)
    by (cbn; lia).
  assert (Hk : 0 <= 4) by lia.
  split; [reflexivity|]. split; [reflexivity|]. split; [exact Hk|].
  split; [reflexivity|]. split; [exact Hrange|].
  destruct (leaf_call_stack_pointer_rounded_down sample_target Sine
              sample_native sample_stub sample_return_address sample_machine 4
              eq_refl eq_refl Hk eq_refl Hrange)
    as [target [m_call [Hrun [Hsp _]]]].
  exists target, m_call. split; [exact Hrun|exact Hsp].
Defined.

(** The non-leaf sequence enters the stub with memory as it was, so the VM
    tag is not touched on this path, and with every register other than
    [T5], [T4] and the link register as it was: the stack pointer still
    points where the caller left the arguments. *)
Theorem nonleaf_stub_entry_state (cfg : Target) (e : RuntimeEntry) (argc : Z)
    (native : uword -> Machine -> Machine) (stub : Machine -> Machine)
    (return_address : Machine -> uword) (m : Machine) :
  is_leaf e = false ->
  exists m_stub,
    fst (run cfg native stub return_address
             (snd (CallInternal cfg e argc [])) m)
    = [CallRuntimeStub m_stub] /\
    (forall a, mem m_stub a = mem m a) /\
    (forall r, r <> T5 -> r <> T4 -> r <> RA ->
               get_reg m_stub r = get_reg m r) /\
    get_reg m_stub SP = get_reg m SP.
Proof.
  intros Hleaf.
  rewrite (CallInternal_nonleaf cfg e argc [] Hleaf). cbn [snd app].
  rewrite run_nonleaf_sequence. cbn [fst].
  eexists. split; [reflexivity|]. split; [|split].
  - intros a. reflexivity.
  - intros r H5 H4 Hra.
    rewrite (get_reg_set_reg_apart _ _ _ _ Hra).
    rewrite (get_reg_set_reg_apart _ _ _ _ H4).
    apply get_reg_set_reg_apart, H5.
  - reflexivity.
Qed.

Lemma nonleaf_stub_entry_state_witness :
  is_leaf Alloc = false /\
  exists m_stub,
    fst (run sample_target sample_native sample_stub sample_return_address
             (snd (CallInternal sample_target Alloc 2 [])) sample_machine)
    = [CallRuntimeStub m_stub] /\
    get_reg m_stub SP = 900004.
Proof.
  split; [reflexivity|].
  destruct (nonleaf_stub_entry_state sample_target Alloc 2
              sample_native sample_stub sample_return_address sample_machine
              eq_refl)
    as [m_stub [Hrun [_ [_ Hsp]]]].
  exists m_stub. split; [exact Hrun|exact Hsp].
Defined.

(** ** From resolution to the call *)

Section Reaching.
Variable SimState : Type.
Variable redirect : uword -> CallKind -> Z -> SimState -> uword * SimState.
Variable dispatch : SimState -> uword -> option uword.
Hypothesis Hadapter : adapter_contract redirect dispatch.

Lemma resolved_target_invokes (sim : bool) (e : RuntimeEntry)
    (s0 s1 : SimState) (h : uword) :
  interp SimState redirect (GetEntryPoint sim e) s0 = (Done h, s1) ->
  invokes dispatch sim s1 h = Some (function e).
Proof.
  destruct Hadapter as [Hfresh _].
  destruct sim.
  - rewrite GetEntryPoint_simulated_cases.
    destruct (argument_count e >=? 0); [|discriminate].
    destruct (_ || _); [|discriminate].
    cbn [interp].
    pose proof (Hfresh (function e) (spec_call_kind e) (argument_count e) s0)
      as H1.
    destruct (redirect (function e) (spec_call_kind e) (argument_count e) s0)
      as [h1 s1'].
    cbn [fst snd] in H1. intros H. inversion H; subst. exact H1.
  - cbn. intros H. inversion H; subst. reflexivity.
Qed.

(** Resolution and emission fit together.  Let a descriptor resolve, in either
    mode, to a target, and let the descriptor's slot of the thread's entry
    table hold that target.  Then the call site emitted for the descriptor
    reaches the descriptor's own native implementation: the leaf sequence
    enters the target with the VM tag set to it, the non-leaf sequence enters
    the stub with the target in [T5], and in both cases the target invokes
    [function]. *)
Theorem resolved_call_site_reaches_function (sim : bool) (cfg : Target)
    (e : RuntimeEntry) (argc : Z) (code : list Instr)
    (native : uword -> Machine -> Machine) (stub : Machine -> Machine)
    (return_address : Machine -> uword)
    (s0 s1 : SimState) (h : uword) (m : Machine) :
  scratch_apart cfg = true ->
  interp SimState redirect (GetEntryPoint sim e) s0 = (Done h, s1) ->
  mem m (thread_slot cfg (get_reg m (THR cfg)) (OffsetFromThread cfg e)) = h ->
  CallInternal cfg e argc [] = (Done tt, code) ->
  invokes dispatch sim s1 h = Some (function e) /\
  exists m_entry,
    fst (run cfg native stub return_address code m)
    = (if is_leaf e then [CallNative h m_entry]
       else [CallRuntimeStub m_entry]) /\
    (if is_leaf e
     then mem m_entry (thread_slot cfg (get_reg m (THR cfg))
                                   (vm_tag_offset cfg)) = h
     else get_reg m_entry T5 = h /\ get_reg m_entry T4 = argc).
Proof.
  intros Hscratch Hresolve Hslot Hcode.
  split; [exact (resolved_target_invokes sim e s0 s1 h Hresolve)|].
  destruct (is_leaf e) eqn:Hleaf.
  - rewrite (CallInternal_leaf cfg e argc [] Hleaf) in Hcode.
    destruct (argc =? argument_count e); [|discriminate Hcode].
    inversion Hcode; subst code. cbn [app].
    rewrite (run_leaf_sequence cfg native stub return_address e m Hscratch).
    rewrite Hslot. cbn [fst].
    eexists. split; [reflexivity|].
    rewrite !mem_set_reg. apply mem_store_same.
  - rewrite (CallInternal_nonleaf cfg e argc [] Hleaf) in Hcode.
    inversion Hcode; subst code. cbn [app].
    rewrite run_nonleaf_sequence. rewrite Hslot. cbn [fst].
    eexists. split; [reflexivity|]. split; reflexivity.
Qed.

End Reaching.

Lemma resolved_call_site_reaches_function_witness :
  adapter_contract FreshHandles.redirect FreshHandles.dispatch /\
  scratch_apart sample_target = true /\
  interp FreshHandles.SimState FreshHandles.redirect
         (GetEntryPoint true Sine) [] = (Done 0, [8192]) /\
  mem (store (65536 + 1040) 0 sample_machine) (65536 + 1040) = 0 /\
  FreshHandles.dispatch [8192] 0 = Some 8192 /\
  exists m_entry,
    fst (run sample_target sample_native sample_stub sample_return_address
             (snd (CallInternal sample_target Sine 1 []))
             (store (65536 + 1040) 0 sample_machine))
    = [CallNative 0 m_entry] /\
    mem m_entry (65536 + 16) = 0.
Proof.
  split; [exact FreshHandles_contract|]. split; [reflexivity|].
  split; [reflexivity|]. split; [reflexivity|].
  exact (resolved_call_site_reaches_function
           FreshHandles.SimState FreshHandles.redirect
           FreshHandles.dispatch FreshHandles_contract
           true sample_target Sine 1 _
           sample_native sample_stub sample_return_address
           [] [8192] 0 (store (65536 + 1040) 0 sample_machine)
           eq_refl eq_refl eq_refl eq_refl).
Defined.
